(** * diabetes-web-app: a shallow embedding of [app.py]

    The Flask application of [app.py] is embedded as pure functions over an
    explicit world (the two tables of the SQLAlchemy database and the
    per-browser Flask session).  Each view function is written in a small
    state-and-exception monad so that its text follows the Python source
    statement by statement.

    What the embedding takes from outside the repository:
    - werkzeug's [generate_password_hash] / [check_password_hash] are
      parameters of [Section Views];
    - the random salt drawn by [generate_password_hash] and the reading of
      [datetime.utcnow] are explicit inputs of the views that use them;
    - Flask-Login's [LoginManager] is modelled with the defaults of its
      constructor, of which [app.py] overrides [login_view] only;
    - Python's [float] builtin is modelled on ASCII text (see [PyFloat]). *)

From Stdlib Require Import ZArith List String Ascii Bool Lia.
From Stdlib Require Import Permutation Sorted Orders Mergesort.
From Stdlib Require Import Floats.SpecFloat.
Import ListNotations.

Local Open Scope string_scope.
Local Open Scope list_scope.
Local Open Scope Z_scope.

(** ** Models ([app.py], lines 33-54) *)

Module User.
Record t := mk {
  id : Z;
  email : string;
  password_hash : string
}.
End User.

Module GlucoseEntry.
Record t := mk {
  id : Z;
  timestamp : Z;                (* DateTime, in microseconds *)
  glucose_value : spec_float;   (* Float, nullable=False *)
  medication : option string;   (* String(255), nullable *)
  notes : option string;        (* Text, nullable *)
  user_id : Z
}.
End GlucoseEntry.

(** The database [db]: one list of rows per table, in insertion order. *)
Record Database := {
  user_table : list User.t;
  glucose_entry_table : list GlucoseEntry.t
}.

(** Integer primary keys are assigned by the engine: one more than the
    largest key of the table. *)
Definition next_id (ids : list Z) : Z := 1 + fold_right Z.max 0 ids.

(** ** Requests, responses, session *)

Inductive Method := GET | POST.

Record Request := {
  method : Method;
  form : list (string * string)
}.

(** [request.form.get(key)]: the first value sent under [key], else None. *)
Fixpoint form_get (key : string) (f : list (string * string)) : option string :=
  match f with
  | [] => None
  | (k, v) :: rest => if String.eqb k key then Some v else form_get key rest
  end.

(** The endpoints registered with [@app.route]. *)
Inductive Endpoint := Index | Register | Login | Logout | Dashboard.

Definition url_for (e : Endpoint) : string :=
  match e with
  | Index => "/"
  | Register => "/register"
  | Login => "/login"
  | Logout => "/logout"
  | Dashboard => "/dashboard"
  end.

(** Percent-encoding of a path as a query value; of the characters in the
    routes above only the slash is escaped. *)
Fixpoint url_quote (s : string) : string :=
  match s with
  | EmptyString => EmptyString
  | String c r =>
      if Ascii.eqb c "/"%char then String.append "%2F" (url_quote r)
      else String c (url_quote r)
  end.

Inductive Response :=
| redirect (location : string)
| render_template (name : string) (entries : list GlucoseEntry.t)
| abort (status : Z).

(** The Flask session of one browser: the id stored by [login_user] and the
    queue of flashed messages, each a (category, message) pair. *)
Record Session := {
  session_user_id : option Z;
  session_flashes : list (string * string)
}.

Record World := {
  db : Database;
  session : Session
}.

(** ** The monad of view functions *)

Inductive Outcome (A : Type) :=
| Returned (a : A) (w : World)
| Raised (exc : string).
Arguments Returned {A} a w.
Arguments Raised {A} exc.

Definition M (A : Type) := World -> Outcome A.

Definition ret {A} (a : A) : M A := fun w => Returned a w.

Definition bind {A B} (m : M A) (k : A -> M B) : M B :=
  fun w => match m w with
           | Returned a w' => k a w'
           | Raised e => Raised e
           end.

Definition raise {A} (exc : string) : M A := fun _ => Raised exc.

Notation "x <- m ;; k" := (bind m (fun x => k))
  (at level 61, m at next level, right associativity).
Notation "m ;; k" := (bind m (fun _ => k))
  (at level 61, right associativity).

(** [flash(message, category)] appends to the session's queue. *)
Definition flash (message category : string) : M unit :=
  fun w =>
    Returned tt
      {| db := db w;
         session := {| session_user_id := session_user_id (session w);
                       session_flashes :=
                         session_flashes (session w) ++ [(category, message)] |} |}.

(** ** Queries and writes *)

(** [User.query.get(pk)] *)
Definition User_query_get (pk : Z) (d : Database) : option User.t :=
  find (fun u => User.id u =? pk) (user_table d).

(** [User.query.filter_by(email=email).first()].  A None argument compiles
    to [email IS NULL], which no row satisfies (the column is not nullable).
    Text is compared byte by byte, so letter case matters. *)
Definition find_user_by_email (e : option string) (d : Database) : option User.t :=
  match e with
  | None => None
  | Some e => find (fun u => String.eqb (User.email u) e) (user_table d)
  end.

Definition User_query_filter_by_email (e : option string) : M (option User.t) :=
  fun w => Returned (find_user_by_email e (db w)) w.

(** [db.session.add(user); db.session.commit()] *)
Definition db_add_user (email password_hash : string) : M unit :=
  fun w =>
    let d := db w in
    let row := User.mk (next_id (map User.id (user_table d))) email password_hash in
    Returned tt
      {| db := {| user_table := user_table d ++ [row];
                  glucose_entry_table := glucose_entry_table d |};
         session := session w |}.

(** The engine is SQLite ([app.py], line 21: [sqlite:///diabetes.db]).  A
    NaN bound to a statement reaches the table as NULL; every other double
    is stored as it is. *)
Definition sqlite_bind_double (v : spec_float) : option spec_float :=
  match v with
  | S754_nan => None
  | _ => Some v
  end.

(** [db.session.add(entry); db.session.commit()]; the [timestamp] column
    takes its default, the reading [utcnow] of the clock.  [glucose_value]
    is declared [nullable=False]: a NULL there makes the INSERT fail and
    [commit] raise IntegrityError. *)
Definition db_add_entry (utcnow : Z) (value : spec_float)
    (medication notes : option string) (user_id : Z) : M unit :=
  fun w =>
    let d := db w in
    match sqlite_bind_double value with
    | Some stored =>
        let row := GlucoseEntry.mk (next_id (map GlucoseEntry.id (glucose_entry_table d)))
                     utcnow stored medication notes user_id in
        Returned tt
          {| db := {| user_table := user_table d;
                      glucose_entry_table := glucose_entry_table d ++ [row] |};
             session := session w |}
    | None => Raised "IntegrityError"
    end.

(** ** Flask-Login *)

(** [load_user] ([app.py], lines 60-62) resolves the id kept in the session. *)
Definition load_user (user_id : Z) (d : Database) : option User.t :=
  User_query_get user_id d.

(** [current_user]: the loaded user, or None for the anonymous user. *)
Definition resolve_user (w : World) : option User.t :=
  match session_user_id (session w) with
  | None => None
  | Some i => load_user i (db w)
  end.

Definition current_user : M (option User.t) :=
  fun w => Returned (resolve_user w) w.

Definition is_authenticated (u : option User.t) : bool :=
  match u with Some _ => true | None => false end.

(** [login_user(user)] / [logout_user()] *)
Definition login_user (u : User.t) : M unit :=
  fun w =>
    Returned tt
      {| db := db w;
         session := {| session_user_id := Some (User.id u);
                       session_flashes := session_flashes (session w) |} |}.

Definition logout_user : M unit :=
  fun w =>
    Returned tt
      {| db := db w;
         session := {| session_user_id := None;
                       session_flashes := session_flashes (session w) |} |}.

Record LoginManager := {
  login_view : option Endpoint;
  login_message : option string;
  login_message_category : string
}.

(** [LoginManager(app)]: the constructor's defaults. *)
Definition LoginManager_init : LoginManager :=
  {| login_view := None;
     login_message := Some "Please log in to access this page.";
     login_message_category := "message" |}.

(** [app.py], lines 26-27. *)
Definition login_manager : LoginManager :=
  {| login_view := Some Login;
     login_message := login_message LoginManager_init;
     login_message_category := login_message_category LoginManager_init |}.

(** [LoginManager.unauthorized]: without a login view the request is
    aborted with 401; otherwise the login message, when there is one, is
    flashed and the client is sent to the login view, the URL it asked for
    riding along in the [next] parameter. *)
Definition unauthorized (lm : LoginManager) (asked : Endpoint) : M Response :=
  match login_view lm with
  | None => ret (abort 401)
  | Some view =>
      match login_message lm with
      | Some msg => flash msg (login_message_category lm)
      | None => ret tt
      end ;;
      ret (redirect (url_for view ++ "?next=" ++ url_quote (url_for asked))%string)
  end.

(** The [@login_required] decorator around the view of endpoint [asked].
    Inside the view [current_user] is the user found here, which the model
    hands to the view as its argument. *)
Definition login_required (asked : Endpoint) (view : User.t -> M Response) : M Response :=
  u <- current_user ;;
  match u with
  | Some usr => view usr
  | None => unauthorized login_manager asked
  end.

(** Python truthiness of an optional string: None and "" are false. *)
Definition truthy (s : option string) : bool :=
  match s with
  | None => false
  | Some s => negb (String.eqb s "")
  end.

(** [password != confirm] on two optional strings. *)
Definition opt_string_eqb (a b : option string) : bool :=
  match a, b with
  | Some x, Some y => String.eqb x y
  | None, None => true
  | _, _ => false
  end.

(** ** Python's [float] on text

    [float(x)] raises TypeError on None.  On a string it strips ASCII
    white space, then reads an optional sign followed by [inf], [infinity]
    or [nan] in any letter case, or by a decimal numeral
<<
      digitpart ::= digit (["_"] digit)*
      number    ::= [digitpart] "." digitpart | digitpart ["."]
      exponent  ::= ("e" | "E") ["+" | "-"] digitpart
>>
    and raises ValueError on anything else.  The value is the binary64
    number nearest to the decimal one (ties to even, overflow to an
    infinity).  Strings are read as ASCII text: a character above 127 makes
    the model raise ValueError, while CPython also reads the decimal digits
    and the spaces of other scripts. *)

Module PyFloat.

Inductive Exception := TypeError | ValueError.

Definition prec : Z := 53.
Definition emax : Z := 1024.

Definition code (c : ascii) : Z := Z.of_nat (nat_of_ascii c).

Definition is_space (c : ascii) : bool :=
  ((9 <=? code c) && (code c <=? 13)) || (code c =? 32).

Definition digit_of (c : ascii) : option Z :=
  if (48 <=? code c) && (code c <=? 57) then Some (code c - 48) else None.

Definition is_digit (c : ascii) : bool :=
  match digit_of c with Some _ => true | None => false end.

Definition lower (c : ascii) : ascii :=
  if (65 <=? code c) && (code c <=? 90)
  then ascii_of_nat (nat_of_ascii c + 32) else c.

Fixpoint lstrip (l : list ascii) : list ascii :=
  match l with
  | c :: r => if is_space c then lstrip r else l
  | [] => []
  end.

Definition strip (l : list ascii) : list ascii :=
  rev (lstrip (rev (lstrip l))).

(** The longest prefix of the form [digit (["_"] digit)*], as digit
    values, and what follows it. *)
Fixpoint digitpart (l : list ascii) : list Z * list ascii :=
  match l with
  | c :: r =>
      match digit_of c with
      | Some d =>
          match r with
          | u :: r' =>
              if Ascii.eqb u "_"%char then
                match r' with
                | c' :: _ =>
                    if is_digit c'
                    then let (ds, k) := digitpart r' in (d :: ds, k)
                    else ([d], r)
                | [] => ([d], r)
                end
              else let (ds, k) := digitpart r in (d :: ds, k)
          | [] => ([d], [])
          end
      | None => ([], l)
      end
  | [] => ([], [])
  end.

Definition sign (l : list ascii) : bool * list ascii :=
  match l with
  | c :: r =>
      if Ascii.eqb c "-"%char then (true, r)
      else if Ascii.eqb c "+"%char then (false, r)
      else (false, l)
  | [] => (false, [])
  end.

Definition digits_value (ds : list Z) : Z :=
  fold_left (fun a d => 10 * a + d) ds 0.

(** [number]: integer digits, fraction digits and the rest. *)
Definition number (l : list ascii) : option (list Z * list Z * list ascii) :=
  let (ip, r1) := digitpart l in
  match r1 with
  | c :: r2 =>
      if Ascii.eqb c "."%char then
        let (fp, r3) := digitpart r2 in
        match ip, fp with
        | [], [] => None
        | _, _ => Some (ip, fp, r3)
        end
      else match ip with [] => None | _ => Some (ip, [], r1) end
  | [] => match ip with [] => None | _ => Some (ip, [], []) end
  end.

(** [exponent]: its value (0 when there is none) and the rest; None when
    the letter e is not followed by an optionally signed digitpart. *)
Definition exponent (l : list ascii) : option (Z * list ascii) :=
  match l with
  | c :: r =>
      if Ascii.eqb (lower c) "e"%char then
        let (neg, r1) := sign r in
        let (ds, r2) := digitpart r1 in
        match ds with
        | [] => None
        | _ => Some (if neg then - digits_value ds else digits_value ds, r2)
        end
      else Some (0, l)
  | [] => Some (0, [])
  end.

(** The binary64 number nearest to [m * 10 ^ k], for [m >= 0]. *)
Definition of_decimal (neg : bool) (m k : Z) : spec_float :=
  match m with
  | Zpos _ =>
      if 0 <=? k then binary_round prec emax neg (Z.to_pos (m * 10 ^ k)) 0
      else
        let d := 10 ^ (- k) in
        let s := Z.max 0 (Z.log2 d - Z.log2 m + 66) in
        let n := m * 2 ^ s in
        let sticky := if n mod d =? 0 then 0 else 1 in
        binary_round prec emax neg (Z.to_pos (2 * (n / d) + sticky)) (- s - 1)
  | _ => S754_zero neg
  end.

Definition float_of_chars (l : list ascii) : Exception + spec_float :=
  let (neg, body) := sign (strip l) in
  let word := string_of_list_ascii (map lower body) in
  if String.eqb word "inf" || String.eqb word "infinity"
  then inr (S754_infinity neg)
  else if String.eqb word "nan" then inr S754_nan
  else
    match number body with
    | Some (ip, fp, r) =>
        match exponent r with
        | Some (e, []) =>
            inr (of_decimal neg (digits_value (ip ++ fp))
                   (e - Z.of_nat (List.length fp)))
        | _ => inl ValueError
        end
    | None => inl ValueError
    end.

Definition float (x : option string) : Exception + spec_float :=
  match x with
  | None => inl TypeError
  | Some s => float_of_chars (list_ascii_of_string s)
  end.

End PyFloat.

(** ** The dashboard query ([app.py], lines 171-176) *)

Definition filter_by_user_id (uid : Z) (l : list GlucoseEntry.t) : list GlucoseEntry.t :=
  filter (fun e => GlucoseEntry.user_id e =? uid) l.

(** [order_by(GlucoseEntry.timestamp.desc())]: [leb a b] says that [a] may
    come before [b].  SQL leaves the order of rows with equal timestamps
    to the engine; the model sorts by merging. *)
Module TimestampDesc <: TotalLeBool.
Definition t := GlucoseEntry.t.
Definition leb (a b : t) : bool :=
  GlucoseEntry.timestamp b <=? GlucoseEntry.timestamp a.
Theorem leb_total : forall a b, leb a b = true \/ leb b a = true.
Proof. intros a b. unfold leb. rewrite !Z.leb_le. lia. Qed.
End TimestampDesc.

Module EntrySort := Sort TimestampDesc.

Definition order_by_timestamp_desc : list GlucoseEntry.t -> list GlucoseEntry.t :=
  EntrySort.sort.

Definition limit (n : nat) (l : list GlucoseEntry.t) : list GlucoseEntry.t :=
  firstn n l.

Definition recent_entries (uid : Z) (d : Database) : list GlucoseEntry.t :=
  limit 30 (order_by_timestamp_desc (filter_by_user_id uid (glucose_entry_table d))).

Definition GlucoseEntry_query_recent (uid : Z) : M (list GlucoseEntry.t) :=
  fun w => Returned (recent_entries uid (db w)) w.

(** ** Views ([app.py], lines 78-177) *)

Section Views.

(** werkzeug.security.  [generate_password_hash salt password] is the
    stored string for the salt drawn at the call.
    [check_password_hash pwhash password] is None when the call raises,
    as it may on a password that is None. *)
Variable generate_password_hash : string -> string -> string.
Variable check_password_hash : string -> option string -> option bool.

(** [User.check_password] *)
Definition check_password (u : User.t) (password : option string) : M bool :=
  match check_password_hash (User.password_hash u) password with
  | Some b => ret b
  | None => raise "check_password_hash"
  end.

Definition index : M Response :=
  u <- current_user ;;
  if is_authenticated u then ret (redirect (url_for Dashboard))
  else ret (redirect (url_for Login)).

Definition register (salt : string) (request : Request) : M Response :=
  u <- current_user ;;
  if is_authenticated u then ret (redirect (url_for Dashboard))
  else
    match method request with
    | POST =>
        let email := form_get "email" (form request) in
        let password := form_get "password" (form request) in
        let confirm := form_get "confirm" (form request) in
        let required :=
          flash "Email and password are required." "danger" ;;
          ret (redirect (url_for Register)) in
        match email, password with
        | Some e, Some p =>
            if negb (truthy email) || negb (truthy password) then required
            else if negb (opt_string_eqb password confirm) then
              flash "Passwords do not match." "danger" ;;
              ret (redirect (url_for Register))
            else
              existing <- User_query_filter_by_email email ;;
              match existing with
              | Some _ =>
                  flash "Email already registered. Please log in." "warning" ;;
                  ret (redirect (url_for Login))
              | None =>
                  (* user = User(email=email); user.set_password(password) *)
                  db_add_user e (generate_password_hash salt p) ;;
                  flash "Registration successful. Please log in." "success" ;;
                  ret (redirect (url_for Login))
              end
        | _, _ => required
        end
    | GET => ret (render_template "register.html" [])
    end.

Definition login (request : Request) : M Response :=
  u <- current_user ;;
  if is_authenticated u then ret (redirect (url_for Dashboard))
  else
    match method request with
    | POST =>
        let email := form_get "email" (form request) in
        let password := form_get "password" (form request) in
        let invalid :=
          flash "Invalid email or password." "danger" ;;
          ret (render_template "login.html" []) in
        user <- User_query_filter_by_email email ;;
        match user with
        | Some usr =>
            ok <- check_password usr password ;;
            if ok then
              login_user usr ;;
              flash "Logged in successfully." "success" ;;
              ret (redirect (url_for Dashboard))
            else invalid
        | None => invalid
        end
    | GET => ret (render_template "login.html" [])
    end.

Definition logout : M Response :=
  login_required Logout (fun _ =>
    logout_user ;;
    flash "Logged out." "info" ;;
    ret (redirect (url_for Login))).

Definition dashboard (utcnow : Z) (request : Request) : M Response :=
  login_required Dashboard (fun current_user =>
    match method request with
    | POST =>
        let glucose_value := form_get "glucose_value" (form request) in
        let medication := form_get "medication" (form request) in
        let notes := form_get "notes" (form request) in
        match PyFloat.float glucose_value with
        | inl PyFloat.TypeError | inl PyFloat.ValueError =>
            flash "Please enter a valid number for glucose value." "danger" ;;
            ret (redirect (url_for Dashboard))
        | inr value =>
            db_add_entry utcnow value medication notes (User.id current_user) ;;
            flash "Entry saved." "success" ;;
            ret (redirect (url_for Dashboard))
        end
    | GET =>
        entries <- GlucoseEntry_query_recent (User.id current_user) ;;
        ret (render_template "dashboard.html" entries)
    end).

End Views.

(** ** Vocabulary of the properties *)

(** The world after one more flashed message. *)
Definition flashed (category message : string) (w : World) : World :=
  {| db := db w;
     session := {| session_user_id := session_user_id (session w);
                   session_flashes :=
                     session_flashes (session w) ++ [(category, message)] |} |}.

(** The world after one more row in the user table. *)
Definition with_user (u : User.t) (w : World) : World :=
  {| db := {| user_table := user_table (db w) ++ [u];
              glucose_entry_table := glucose_entry_table (db w) |};
     session := session w |}.

(** The world after one more row in the entry table. *)
Definition with_entry (e : GlucoseEntry.t) (w : World) : World :=
  {| db := {| user_table := user_table (db w);
              glucose_entry_table := glucose_entry_table (db w) ++ [e] |};
     session := session w |}.

Definition registered (e : string) (d : Database) : Prop :=
  In e (map User.email (user_table d)).

(** Newest first, ties allowed / not allowed. *)
Definition newer_or_equal (a b : GlucoseEntry.t) : Prop :=
  GlucoseEntry.timestamp b <= GlucoseEntry.timestamp a.

Definition strictly_newer (a b : GlucoseEntry.t) : Prop :=
  GlucoseEntry.timestamp b < GlucoseEntry.timestamp a.

Definition descending (l : list GlucoseEntry.t) : Prop :=
  StronglySorted newer_or_equal l.

Definition strictly_descending (l : list GlucoseEntry.t) : Prop :=
  StronglySorted strictly_newer l.

(** ** Sample data *)

(** A stand-in for werkzeug, unsalted, for running the views. *)
Definition sample_generate_password_hash (salt password : string) : string :=
  String.append "sample$" password.

Definition sample_check_password_hash (pwhash : string) (password : option string)
  : option bool :=
  match password with
  | Some p => Some (String.eqb pwhash (sample_generate_password_hash "" p))
  | None => None
  end.

Definition alice : User.t := User.mk 1 "alice@example.com" "sample$secret123".

Definition anonymous : Session :=
  {| session_user_id := None; session_flashes := [] |}.

Definition signed_in (u : User.t) : Session :=
  {| session_user_id := Some (User.id u); session_flashes := [] |}.

Definition empty_db : Database :=
  {| user_table := []; glucose_entry_table := [] |}.

Definition alice_db : Database :=
  {| user_table := [alice]; glucose_entry_table := [] |}.

Definition post (fields : list (string * string)) : Request :=
  {| method := POST; form := fields |}.

Definition get : Request := {| method := GET; form := [] |}.

(** An entry of [owner] taken at [ts], reading 5.5. *)
Definition reading (i ts owner : Z) : GlucoseEntry.t :=
  GlucoseEntry.mk i ts (PyFloat.of_decimal false 55 (-1)) None None owner.

(** Thirty entries of alice, with ids 1..30 and timestamps 101..130. *)
Definition thirty_entries : list GlucoseEntry.t :=
  map (fun n => reading (Z.of_nat n) (100 + Z.of_nat n) (User.id alice)) (seq 1 30).

Definition busy_db : Database :=
  {| user_table := [alice]; glucose_entry_table := thirty_entries |}.

(** Two entries of alice written at the same instant. *)
Definition tie_db : Database :=
  {| user_table := [alice];
     glucose_entry_table := [reading 1 100 (User.id alice); reading 2 100 (User.id alice)] |}.

(** ** The properties as the specification words them

    Where the code departs from a sentence of the specification, the
    sentence is kept here as a predicate, to be refuted on a sample. *)

(** "in strictly descending order by timestamp" *)
Definition listRecent_as_specified (uid : Z) (d : Database) : Prop :=
  (forall e, In e (recent_entries uid d) -> GlucoseEntry.user_id e = uid)
  /\ strictly_descending (recent_entries uid d)
  /\ (List.length (recent_entries uid d) <= 30)%nat.


(** "stored as given, and as the empty string when the form field is absent" *)
Definition or_empty (field : option string) : option string :=
  match field with
  | Some s => Some s
  | None => Some ""
  end.

Definition optional_fields_as_specified (request : Request) (entry : GlucoseEntry.t) : Prop :=
  GlucoseEntry.medication entry = or_empty (form_get "medication" (form request))
  /\ GlucoseEntry.notes entry = or_empty (form_get "notes" (form request)).

(** "silently redirected to login with no error shown": a redirect to the
    login page that leaves the queue of flashed messages as it was. *)
Definition silently_redirected_to_login (view : M Response) (w : World) : Prop :=
  exists location w',
    view w = Returned (redirect location) w'
    /\ String.prefix (url_for Login) location = true
    /\ session_flashes (session w') = session_flashes (session w).


(** ** The application as a whole

    The routes of [app.py] (lines 78, 85, 118, 138, 146) and the methods
    each accepts; a route without a [methods] argument accepts GET.  A
    request with another method is answered 405 before any view runs. *)

Definition methods (e : Endpoint) : list Method :=
  match e with
  | Index => [GET]
  | Register => [GET; POST]
  | Login => [GET; POST]
  | Logout => [GET]
  | Dashboard => [GET; POST]
  end.

Definition Method_eqb (a b : Method) : bool :=
  match a, b with
  | GET, GET | POST, POST => true
  | _, _ => false
  end.

Definition allowed (e : Endpoint) (m : Method) : bool :=
  existsb (Method_eqb m) (methods e).

(** One request as the application meets it: the route, the request, and
    what the environment would supply while it is served (the clock
    reading and the salt). *)
Record Call := {
  endpoint : Endpoint;
  call_request : Request;
  clock : Z;
  drawn_salt : string
}.

Definition dispatch
    (generate_password_hash : string -> string -> string)
    (check_password_hash : string -> option string -> option bool)
    (c : Call) : M Response :=
  if allowed (endpoint c) (method (call_request c)) then
    match endpoint c with
    | Index => index
    | Register => register generate_password_hash (drawn_salt c) (call_request c)
    | Login => login check_password_hash (call_request c)
    | Logout => logout
    | Dashboard => dashboard (clock c) (call_request c)
    end
  else ret (abort 405).

(** The world after a call.  A view that raises has written nothing by
    then (no flash, no commit), and the world stays as it was. *)
Definition step
    (generate_password_hash : string -> string -> string)
    (check_password_hash : string -> option string -> option bool)
    (w : World) (c : Call) : World :=
  match dispatch generate_password_hash check_password_hash c w with
  | Returned _ w' => w'
  | Raised _ => w
  end.

(** The databases that calls can produce from the empty tables of
    [db.create_all()], whatever session each call arrives with. *)
Inductive reachable
    (generate_password_hash : string -> string -> string)
    (check_password_hash : string -> option string -> option bool)
  : Database -> Prop :=
| reachable_init : reachable generate_password_hash check_password_hash empty_db
| reachable_step : forall d s c,
    reachable generate_password_hash check_password_hash d ->
    reachable generate_password_hash check_password_hash
      (db (step generate_password_hash check_password_hash
             {| db := d; session := s |} c)).

(** What a call can have done to the database and to the signed-in user. *)
Inductive Change
    (generate_password_hash : string -> string -> string)
    (check_password_hash : string -> option string -> option bool)
    (w : World) (c : Call) (w' : World) : Prop :=
| nothing_stored :
    db w' = db w ->
    session_user_id (session w') = session_user_id (session w) ->
    Change generate_password_hash check_password_hash w c w'
| user_registered : forall e p,
    endpoint c = Register ->
    method (call_request c) = POST ->
    resolve_user w = None ->
    form_get "email" (form (call_request c)) = Some e -> e <> "" ->
    form_get "password" (form (call_request c)) = Some p -> p <> "" ->
    ~ registered e (db w) ->
    db w' = db (with_user
                  (User.mk (next_id (map User.id (user_table (db w)))) e
                     (generate_password_hash (drawn_salt c) p)) w) ->
    session_user_id (session w') = session_user_id (session w) ->
    Change generate_password_hash check_password_hash w c w'
| entry_saved : forall u v,
    endpoint c = Dashboard ->
    method (call_request c) = POST ->
    resolve_user w = Some u ->
    PyFloat.float (form_get "glucose_value" (form (call_request c))) = inr v ->
    v <> S754_nan ->
    db w' = db (with_entry
                  (GlucoseEntry.mk
                     (next_id (map GlucoseEntry.id (glucose_entry_table (db w))))
                     (clock c) v
                     (form_get "medication" (form (call_request c)))
                     (form_get "notes" (form (call_request c)))
                     (User.id u)) w) ->
    session_user_id (session w') = session_user_id (session w) ->
    Change generate_password_hash check_password_hash w c w'
| signed_in_as : forall u,
    endpoint c = Login ->
    method (call_request c) = POST ->
    resolve_user w = None ->
    find_user_by_email (form_get "email" (form (call_request c))) (db w) = Some u ->
    check_password_hash (User.password_hash u)
      (form_get "password" (form (call_request c))) = Some true ->
    db w' = db w ->
    session_user_id (session w') = Some (User.id u) ->
    Change generate_password_hash check_password_hash w c w'
| signed_out : forall u,
    endpoint c = Logout ->
    resolve_user w = Some u ->
    db w' = db w ->
    session_user_id (session w') = None ->
    Change generate_password_hash check_password_hash w c w'.

(** Well-formed tables. *)
Definition credentials_well_formed (d : Database) : Prop :=
  NoDup (map User.email (user_table d))
  /\ NoDup (map User.id (user_table d))
  /\ Forall (fun u => User.email u <> "" /\ 0 < User.id u) (user_table d).

Definition entries_well_formed (d : Database) : Prop :=
  NoDup (map GlucoseEntry.id (glucose_entry_table d))
  /\ Forall (fun e => GlucoseEntry.glucose_value e <> S754_nan
                      /\ In (GlucoseEntry.user_id e) (map User.id (user_table d)))
       (glucose_entry_table d).

(** Sample calls. *)
Definition call (e : Endpoint) (r : Request) : Call :=
  {| endpoint := e; call_request := r; clock := 7; drawn_salt := "salt" |}.

Definition bob_registers : Call :=
  call Register (post [("email", "bob@example.com"); ("password", "hunter2");
                      ("confirm", "hunter2")]).

Definition alice_session : World :=
  {| db := alice_db; session := signed_in alice |}.

(** The thirty entries of alice and one older entry of hers. *)
Definition crowded_db : Database :=
  {| user_table := [alice];
     glucose_entry_table := thirty_entries ++ [reading 31 50 (User.id alice)] |}.

(** The session of [w] signed in as [u] / signed out. *)
Definition sign_in (u : User.t) (w : World) : World :=
  {| db := db w;
     session := {| session_user_id := Some (User.id u);
                   session_flashes := session_flashes (session w) |} |}.

Definition sign_out (w : World) : World :=
  {| db := db w;
     session := {| session_user_id := None;
                   session_flashes := session_flashes (session w) |} |}.

Definition registration_form (e p : string) : Request :=
  post [("email", e); ("password", p); ("confirm", p)].

Definition login_form (e p : string) : Request :=
  post [("email", e); ("password", p)].

(** ** Auxiliary lemmas *)

Lemma fold_max_upper : forall ids i, In i ids -> i <= fold_right Z.max 0 ids.
Proof.
  induction ids as [|j ids IH]; simpl; intros i Hin.
  - contradiction.
  - destruct Hin as [-> | Hin].
    + lia.
    + specialize (IH i Hin). lia.
Qed.

Lemma next_id_fresh : forall ids, ~ In (next_id ids) ids.
Proof.
  intros ids Hin. apply fold_max_upper in Hin. unfold next_id in Hin. lia.
Qed.

Lemma find_email_none : forall e l,
  ~ In e (map User.email l) ->
  find (fun u => String.eqb (User.email u) e) l = None.
Proof.
  induction l as [|u l IH]; simpl; intros Hnot.
  - reflexivity.
  - destruct (String.eqb_spec (User.email u) e) as [Heq | Hne].
    + exfalso. apply Hnot. now left.
    + apply IH. intro Hin. apply Hnot. now right.
Qed.

Lemma find_email_some : forall e l,
  In e (map User.email l) ->
  exists u, find (fun u => String.eqb (User.email u) e) l = Some u.
Proof.
  induction l as [|u l IH]; simpl; intros Hin.
  - contradiction.
  - destruct (String.eqb_spec (User.email u) e) as [Heq | Hne].
    + now exists u.
    + destruct Hin as [Heq | Hin]; [contradiction | now apply IH].
Qed.

Lemma truthy_nonempty : forall s, s <> "" -> truthy (Some s) = true.
Proof.
  intros s Hs. unfold truthy. apply negb_true_iff. now apply String.eqb_neq.
Qed.

(** ** Registration *)



(** Unfolding a view down to its case analysis. *)
Ltac unfold_view :=
  unfold register, login, logout, dashboard, index, login_required,
    unauthorized, check_password, GlucoseEntry_query_recent,
    User_query_filter_by_email, db_add_user, db_add_entry, login_user,
    logout_user, flash, current_user, bind, ret, raise.

Ltac case_step :=
  match goal with
  | |- context [match ?x with _ => _ end] => destruct x eqn:?
  | |- context [if ?x then _ else _] => destruct x eqn:?
  end.

(** The user table changes on one path of [register] only, the one on
    which the lookup by email found nothing. *)
Lemma register_store_unchanged :
  forall (generate_password_hash : string -> string -> string)
         (salt : string) (request : Request) (w : World),
    (method request = POST ->
     find_user_by_email (form_get "email" (form request)) (db w) <> None
     \/ opt_string_eqb (form_get "password" (form request))
          (form_get "confirm" (form request)) = false) ->
    exists r w',
      register generate_password_hash salt request w = Returned r w'
      /\ db w' = db w
      /\ session_user_id (session w') = session_user_id (session w).
Proof.
  intros gph salt request w Hblock.
  unfold_view.
  destruct (resolve_user w) as [usr|] eqn:Huser; cbn [is_authenticated].
  - eauto.
  - destruct (method request) eqn:Hm; [eauto | ].
    specialize (Hblock eq_refl).
    destruct (form_get "email" (form request)) as [e|] eqn:He; [ | cbn; eauto].
    destruct (form_get "password" (form request)) as [p|] eqn:Hp; [ | cbn; eauto].
    destruct (negb (truthy (Some e)) || negb (truthy (Some p))); [cbn; eauto | ].
    destruct (negb (opt_string_eqb (Some p) (form_get "confirm" (form request))))
      eqn:Hc; [cbn; eauto | ].
    destruct (find_user_by_email (Some e) (db w)) eqn:Hfind; [cbn; eauto | ].
    exfalso. destruct Hblock as [Hfound | Hmismatch].
    + now apply Hfound.
    + rewrite Hmismatch in Hc. discriminate Hc.
Qed.

(** C6 (as amended). When the email of a registration attempt is already
    in the user table, no user row is created, the database is left as it
    was and nobody is signed in; when the attempt is a POST by an
    unauthenticated client with a non-empty email and a non-empty password
    equal to confirm, the reply is a redirect to the login page and a
    warning is flashed. *)
Theorem register_duplicate_email_no_mutation :
  forall (generate_password_hash : string -> string -> string)
         (salt : string) (request : Request) (w : World) (e : string),
    form_get "email" (form request) = Some e ->
    registered e (db w) ->
    exists r w',
      register generate_password_hash salt request w = Returned r w'
      /\ db w' = db w
      /\ session_user_id (session w') = session_user_id (session w)
      /\ (resolve_user w = None ->
          method request = POST ->
          e <> "" ->
          truthy (form_get "password" (form request)) = true ->
          opt_string_eqb (form_get "password" (form request))
            (form_get "confirm" (form request)) = true ->
          r = redirect (url_for Login)
          /\ w' = flashed "warning" "Email already registered. Please log in." w).
Proof.
  intros gph salt request w e He Hreg.
  destruct (find_email_some e _ Hreg) as [u Hu].
  destruct (register_store_unchanged gph salt request w) as (r & w' & Hrun & Hdb & Hsess).
  { intros _. left. rewrite He. unfold find_user_by_email. rewrite Hu. discriminate. }
  exists r, w'.
  split; [exact Hrun | split; [exact Hdb | split; [exact Hsess | ]]].
  intros Hanon Hpost Hne Hpw Hsame.
  revert Hrun. unfold_view. rewrite Hanon, Hpost, He. cbn [is_authenticated].
  destruct (form_get "password" (form request)) as [p|]; [ | discriminate Hpw].
  rewrite (truthy_nonempty e Hne), Hpw, Hsame. cbn [negb orb].
  unfold find_user_by_email. rewrite Hu.
  intro Hrun. inversion Hrun. split; reflexivity.
Qed.

Lemma register_duplicate_email_no_mutation_witness :
  exists r w',
    register sample_generate_password_hash "salt"
      (post [("email", "alice@example.com"); ("password", "pw"); ("confirm", "pw")])
      {| db := alice_db; session := anonymous |} = Returned r w'
    /\ db w' = alice_db
    /\ session_user_id (session w') = None
    /\ (resolve_user {| db := alice_db; session := anonymous |} = None ->
        POST = POST ->
        "alice@example.com" <> "" ->
        truthy (Some "pw") = true ->
        opt_string_eqb (Some "pw") (Some "pw") = true ->
        r = redirect (url_for Login)
        /\ w' = flashed "warning" "Email already registered. Please log in."
                  {| db := alice_db; session := anonymous |}).
Proof.
  apply (register_duplicate_email_no_mutation sample_generate_password_hash "salt"
           (post [("email", "alice@example.com"); ("password", "pw"); ("confirm", "pw")])
           {| db := alice_db; session := anonymous |} "alice@example.com").
  - reflexivity.
  - unfold registered; simpl. now left.
Defined.

(** C6 as stated fails: with a mismatched confirm field the attempt is
    answered by the password check, before the email is looked up. *)
Lemma register_duplicate_email_counterexample :
  let request := post [("email", "alice@example.com"); ("password", "a"); ("confirm", "b")] in
  let w := {| db := alice_db; session := anonymous |} in
  method request = POST
  /\ form_get "email" (form request) = Some "alice@example.com"
  /\ registered "alice@example.com" (db w)
  /\ register sample_generate_password_hash "salt" request w
       = Returned (redirect (url_for Register)) (flashed "danger" "Passwords do not match." w)
  /\ register sample_generate_password_hash "salt" request w
       <> Returned (redirect (url_for Login))
            (flashed "warning" "Email already registered. Please log in." w).
Proof.
  cbv zeta. repeat split.
  - unfold registered; simpl. now left.
  - vm_compute. discriminate.
Qed.

(** C8 (as amended). A POST to /register whose password differs from
    confirm creates no user row and leaves the database as it was; when
    the client is unauthenticated the reply is a redirect to the
    registration form and an error (category danger) is flashed. *)
Theorem register_mismatch_creates_no_user :
  forall (generate_password_hash : string -> string -> string)
         (salt : string) (request : Request) (w : World),
    method request = POST ->
    opt_string_eqb (form_get "password" (form request))
      (form_get "confirm" (form request)) = false ->
    exists r w',
      register generate_password_hash salt request w = Returned r w'
      /\ db w' = db w
      /\ (resolve_user w = None ->
          r = redirect (url_for Register)
          /\ exists message, w' = flashed "danger" message w).
Proof.
  intros gph salt request w Hpost Hdiff.
  destruct (register_store_unchanged gph salt request w) as (r & w' & Hrun & Hdb & _).
  { intros _. now right. }
  exists r, w'. split; [exact Hrun | split; [exact Hdb | ]].
  intros Hanon. revert Hrun. unfold_view. rewrite Hanon, Hpost. cbn [is_authenticated].
  destruct (form_get "email" (form request)) as [e|];
    [ | intro Hrun; inversion Hrun; split; [reflexivity | eexists; reflexivity]].
  destruct (form_get "password" (form request)) as [p|];
    [ | intro Hrun; inversion Hrun; split; [reflexivity | eexists; reflexivity]].
  destruct (negb (truthy (Some e)) || negb (truthy (Some p)));
    [intro Hrun; inversion Hrun; split; [reflexivity | eexists; reflexivity] | ].
  rewrite Hdiff. cbn [negb].
  intro Hrun; inversion Hrun; split; [reflexivity | eexists; reflexivity].
Qed.

Lemma register_mismatch_creates_no_user_witness :
  exists r w',
    register sample_generate_password_hash "salt"
      (post [("email", "bob@example.com"); ("password", "a"); ("confirm", "b")])
      {| db := alice_db; session := anonymous |} = Returned r w'
    /\ db w' = alice_db
    /\ (resolve_user {| db := alice_db; session := anonymous |} = None ->
        r = redirect (url_for Register)
        /\ exists message,
             w' = flashed "danger" message {| db := alice_db; session := anonymous |}).
Proof.
  apply (register_mismatch_creates_no_user sample_generate_password_hash "salt"
           (post [("email", "bob@example.com"); ("password", "a"); ("confirm", "b")])
           {| db := alice_db; session := anonymous |}).
  - reflexivity.
  - reflexivity.
Defined.

(** C8 as stated fails: a signed-in client is sent to the dashboard, and
    nothing is flashed. *)
Lemma register_mismatch_counterexample :
  let request := post [("email", "bob@example.com"); ("password", "a"); ("confirm", "b")] in
  let w := {| db := alice_db; session := signed_in alice |} in
  method request = POST
  /\ opt_string_eqb (form_get "password" (form request))
       (form_get "confirm" (form request)) = false
  /\ register sample_generate_password_hash "salt" request w
       = Returned (redirect (url_for Dashboard)) w
  /\ ~ (exists message,
          register sample_generate_password_hash "salt" request w
            = Returned (redirect (url_for Register)) (flashed "danger" message w)).
Proof.
  cbv zeta. repeat split.
  intros [message H]. vm_compute in H. discriminate H.
Qed.

(** ** Login *)



(** ** Protected routes: login_required *)

(** C9 (as amended). An unauthenticated request to /dashboard or to
    /logout is never answered by a rendered page: the reply is a redirect
    to the login page (with the asked path as [next]), the database and the
    session's user are untouched, and one message is flashed, Flask-Login's
    "Please log in to access this page." under category message; nothing
    is flashed under the error category danger. *)
Theorem protected_routes_redirect_to_login :
  forall (utcnow : Z) (request : Request) (w : World),
    resolve_user w = None ->
    let w' := flashed "message" "Please log in to access this page." w in
    dashboard utcnow request w = Returned (redirect "/login?next=%2Fdashboard") w'
    /\ logout w = Returned (redirect "/login?next=%2Flogout") w'
    /\ String.prefix (url_for Login) "/login?next=%2Fdashboard" = true
    /\ String.prefix (url_for Login) "/login?next=%2Flogout" = true
    /\ db w' = db w
    /\ resolve_user w' = None
    /\ (forall message, In ("danger", message) (session_flashes (session w')) ->
        In ("danger", message) (session_flashes (session w))).
Proof.
  intros utcnow request w Hanon w'.
  split; [ | split].
  - unfold_view. rewrite Hanon. reflexivity.
  - unfold_view. rewrite Hanon. reflexivity.
  - repeat split.
    + exact Hanon.
    + intros message Hin. subst w'. cbn in Hin.
      apply in_app_or in Hin. destruct Hin as [Hin | [Heq | []]].
      * exact Hin.
      * discriminate Heq.
Qed.

Lemma protected_routes_redirect_to_login_witness :
  let w := {| db := alice_db; session := anonymous |} in
  let w' := flashed "message" "Please log in to access this page." w in
  dashboard 0 get w = Returned (redirect "/login?next=%2Fdashboard") w'
  /\ logout w = Returned (redirect "/login?next=%2Flogout") w'
  /\ String.prefix (url_for Login) "/login?next=%2Fdashboard" = true
  /\ String.prefix (url_for Login) "/login?next=%2Flogout" = true
  /\ db w' = db w
  /\ resolve_user w' = None
  /\ (forall message, In ("danger", message) (session_flashes (session w')) ->
      In ("danger", message) (session_flashes (session w))).
Proof.
  cbv zeta.
  apply (protected_routes_redirect_to_login 0 get
           {| db := alice_db; session := anonymous |}).
  reflexivity.
Defined.

(** C9 as stated fails: the redirect is not silent, [login_required] flashes a
    message on its way. *)
Lemma protected_routes_counterexample :
  let w := {| db := alice_db; session := anonymous |} in
  resolve_user w = None
  /\ dashboard 0 get w =
       Returned (redirect "/login?next=%2Fdashboard")
         (flashed "message" "Please log in to access this page." w)
  /\ ~ silently_redirected_to_login (dashboard 0 get) w.
Proof.
  cbv zeta. repeat split.
  intros (location & w' & Hrun & _ & Hquiet).
  vm_compute in Hrun. inversion Hrun; subst w'.
  discriminate Hquiet.
Qed.

(** ** Dashboard: writing an entry *)

(** C7. A POST to /dashboard by an authenticated user whose glucose_value
    [float] refuses (a missing field included: [float(None)] raises
    TypeError) creates no entry: the database is left as it was, the reply
    is a redirect to the dashboard and an error is flashed. *)
Theorem dashboard_post_rejects_non_number :
  forall (utcnow : Z) (request : Request) (w : World) (u : User.t),
    resolve_user w = Some u ->
    method request = POST ->
    (form_get "glucose_value" (form request) = None
     \/ exists exc, PyFloat.float (form_get "glucose_value" (form request)) = inl exc) ->
    let w' := flashed "danger" "Please enter a valid number for glucose value." w in
    dashboard utcnow request w = Returned (redirect (url_for Dashboard)) w'
    /\ db w' = db w
    /\ glucose_entry_table (db w') = glucose_entry_table (db w).
Proof.
  intros utcnow request w u Hauth Hpost Hbad w'.
  assert (Hexc : exists exc,
             PyFloat.float (form_get "glucose_value" (form request)) = inl exc).
  { destruct Hbad as [Hmissing | Hexc]; [ | exact Hexc].
    rewrite Hmissing. now exists PyFloat.TypeError. }
  destruct Hexc as [exc Hexc].
  repeat split.
  unfold_view. rewrite Hauth, Hpost, Hexc.
  destruct exc; reflexivity.
Qed.

Lemma dashboard_post_rejects_non_number_witness :
  let w := {| db := alice_db; session := signed_in alice |} in
  let w' := flashed "danger" "Please enter a valid number for glucose value." w in
  (dashboard 7 (post [("glucose_value", "high")]) w
     = Returned (redirect (url_for Dashboard)) w'
   /\ db w' = db w
   /\ glucose_entry_table (db w') = glucose_entry_table (db w))
  /\ (dashboard 7 (post [("notes", "forgot the value")]) w
        = Returned (redirect (url_for Dashboard)) w'
      /\ db w' = db w
      /\ glucose_entry_table (db w') = glucose_entry_table (db w)).
Proof.
  cbv zeta. split.
  - apply (dashboard_post_rejects_non_number 7 (post [("glucose_value", "high")])
             {| db := alice_db; session := signed_in alice |} alice).
    + reflexivity.
    + reflexivity.
    + right. exists PyFloat.ValueError. reflexivity.
  - apply (dashboard_post_rejects_non_number 7 (post [("notes", "forgot the value")])
             {| db := alice_db; session := signed_in alice |} alice).
    + reflexivity.
    + reflexivity.
    + left. reflexivity.
Defined.

(** ** Dashboard: the query *)

Lemma In_firstn : forall (A : Type) (n : nat) (l : list A) (x : A),
  In x (firstn n l) -> In x l.
Proof.
  induction n as [|n IH]; intros [|a l] x Hin; simpl in *; try contradiction.
  destruct Hin as [-> | Hin]; [now left | right; now apply IH].
Qed.

Lemma StronglySorted_firstn :
  forall (A : Type) (R : A -> A -> Prop) (n : nat) (l : list A),
    StronglySorted R l -> StronglySorted R (firstn n l).
Proof.
  induction n as [|n IH]; intros l Hs; simpl.
  - constructor.
  - destruct l as [|a l]; [constructor | ].
    apply StronglySorted_inv in Hs. destruct Hs as [Hs Hall].
    constructor; [now apply IH | ].
    rewrite Forall_forall in *. intros x Hx. apply Hall. eapply In_firstn, Hx.
Qed.

Lemma timestamp_desc_transitive :
  Relations_1.Transitive (fun a b => is_true (TimestampDesc.leb a b)).
Proof.
  intros a b c Hab Hbc. unfold is_true, TimestampDesc.leb in *.
  rewrite Z.leb_le in *. lia.
Qed.

Lemma order_by_timestamp_desc_sorted :
  forall l, descending (order_by_timestamp_desc l).
Proof.
  intros l. unfold descending, order_by_timestamp_desc.
  pose proof (EntrySort.StronglySorted_sort l timestamp_desc_transitive) as Hs.
  induction Hs as [|a s Hs IH Hall]; constructor.
  - exact IH.
  - eapply Forall_impl; [ | exact Hall].
    intros b Hb. unfold newer_or_equal. unfold is_true, TimestampDesc.leb in Hb.
    now apply Z.leb_le.
Qed.

Lemma order_by_timestamp_desc_perm :
  forall l, Permutation l (order_by_timestamp_desc l).
Proof. intros l. apply EntrySort.Permuted_sort. Qed.

Lemma recent_entries_from_table : forall uid d e,
  In e (recent_entries uid d) ->
  GlucoseEntry.user_id e = uid /\ In e (glucose_entry_table d).
Proof.
  intros uid d e Hin. unfold recent_entries, limit in Hin.
  apply In_firstn in Hin.
  apply (Permutation_in e (Permutation_sym (order_by_timestamp_desc_perm _))) in Hin.
  unfold filter_by_user_id in Hin. apply filter_In in Hin.
  destruct Hin as [Hin Huid]. split; [now apply Z.eqb_eq | exact Hin].
Qed.

(** C2 (as amended). For every user id and every state of the entry table
    the dashboard query returns rows of the table owned by that user only,
    newest first in the weak sense (a row is never followed by a row with a
    later timestamp; rows with equal timestamps may follow each other), and
    at most 30 of them. *)
Theorem recent_entries_owned_descending_capped :
  forall (uid : Z) (d : Database),
    (forall e, In e (recent_entries uid d) ->
       GlucoseEntry.user_id e = uid /\ In e (glucose_entry_table d))
    /\ descending (recent_entries uid d)
    /\ (List.length (recent_entries uid d) <= 30)%nat.
Proof.
  intros uid d. split; [ | split].
  - intros e. apply recent_entries_from_table.
  - unfold recent_entries, limit. apply StronglySorted_firstn.
    apply order_by_timestamp_desc_sorted.
  - unfold recent_entries, limit. apply firstn_le_length.
Qed.

(** C2 as stated fails: two entries written at the same instant are both
    listed, and neither is strictly newer than the other. *)
Lemma recent_entries_counterexample :
  recent_entries (User.id alice) tie_db
    = [reading 1 100 (User.id alice); reading 2 100 (User.id alice)]
  /\ ~ listRecent_as_specified (User.id alice) tie_db.
Proof.
  split; [reflexivity | ].
  intros (_ & Hstrict & _).
  change (recent_entries (User.id alice) tie_db)
    with [reading 1 100 (User.id alice); reading 2 100 (User.id alice)] in Hstrict.
  apply StronglySorted_inv in Hstrict. destruct Hstrict as [_ Hall].
  apply Forall_inv in Hall. unfold strictly_newer in Hall. simpl in Hall. lia.
Qed.







Lemma app_one_neq : forall (A : Type) (l : list A) (x : A), l <> l ++ [x].
Proof.
  intros A l x Heq. apply (f_equal (@List.length A)) in Heq.
  rewrite length_app in Heq. simpl in Heq. lia.
Qed.





(** C4 (as amended). Every entry that a request to /dashboard appends
    carries in medication and in notes what [request.form.get] returned:
    the text sent (the empty string when the field was sent empty), and
    None, not the empty string, when the field is absent. *)
Theorem dashboard_post_optional_fields_as_given :
  forall (utcnow : Z) (request : Request) (w w' : World) (r : Response)
         (entry : GlucoseEntry.t),
    dashboard utcnow request w = Returned r w' ->
    glucose_entry_table (db w') = glucose_entry_table (db w) ++ [entry] ->
    GlucoseEntry.medication entry = form_get "medication" (form request)
    /\ GlucoseEntry.notes entry = form_get "notes" (form request)
    /\ (form_get "medication" (form request) = None ->
        GlucoseEntry.medication entry = None)
    /\ (form_get "notes" (form request) = None ->
        GlucoseEntry.notes entry = None).
Proof.
  intros utcnow request w w' r entry Hrun Htable.
  assert (Hgiven :
            GlucoseEntry.medication entry = form_get "medication" (form request)
            /\ GlucoseEntry.notes entry = form_get "notes" (form request)).
  { revert Hrun. unfold_view.
    destruct (resolve_user w) as [u|]; cbv beta.
    - destruct (method request).
      + intro Hrun. inversion Hrun; subst. now apply app_one_neq in Htable.
      + destruct (PyFloat.float (form_get "glucose_value" (form request)))
          as [[|]|v].
        * intro Hrun. inversion Hrun; subst. now apply app_one_neq in Htable.
        * intro Hrun. inversion Hrun; subst. now apply app_one_neq in Htable.
        * destruct (sqlite_bind_double v) as [stored|]; [ | discriminate].
          intro Hrun. inversion Hrun; subst. cbn in Htable.
          apply app_inv_head in Htable. inversion Htable. now split.
    - cbn. intro Hrun. inversion Hrun; subst. now apply app_one_neq in Htable. }
  destruct Hgiven as [Hmed Hnotes].
  split; [exact Hmed | split; [exact Hnotes | split]].
  - intro Habsent. now rewrite Hmed.
  - intro Habsent. now rewrite Hnotes.
Qed.

Lemma dashboard_post_optional_fields_as_given_witness :
  let request := post [("glucose_value", "5.5"); ("medication", "insulin"); ("notes", "")] in
  let w := {| db := alice_db; session := signed_in alice |} in
  let entry := GlucoseEntry.mk 1 7 (PyFloat.of_decimal false 55 (-1))
                 (Some "insulin") (Some "") (User.id alice) in
  GlucoseEntry.medication entry = form_get "medication" (form request)
  /\ GlucoseEntry.notes entry = form_get "notes" (form request)
  /\ (form_get "medication" (form request) = None ->
      GlucoseEntry.medication entry = None)
  /\ (form_get "notes" (form request) = None ->
      GlucoseEntry.notes entry = None).
Proof.
  cbv zeta.
  apply (dashboard_post_optional_fields_as_given 7
           (post [("glucose_value", "5.5"); ("medication", "insulin"); ("notes", "")])
           {| db := alice_db; session := signed_in alice |}
           (flashed "success" "Entry saved."
              (with_entry
                 (GlucoseEntry.mk 1 7 (PyFloat.of_decimal false 55 (-1))
                    (Some "insulin") (Some "") (User.id alice))
                 {| db := alice_db; session := signed_in alice |}))
           (redirect (url_for Dashboard))).
  - reflexivity.
  - reflexivity.
Defined.

(** C4 as stated fails: an absent field is stored as None (NULL), not as
    the empty string. *)
Lemma dashboard_post_optional_fields_counterexample :
  let request := post [("glucose_value", "5.5")] in
  let w := {| db := alice_db; session := signed_in alice |} in
  let entry := GlucoseEntry.mk 1 7 (PyFloat.of_decimal false 55 (-1))
                 None None (User.id alice) in
  dashboard 7 request w =
    Returned (redirect (url_for Dashboard))
      (flashed "success" "Entry saved." (with_entry entry w))
  /\ form_get "medication" (form request) = None
  /\ GlucoseEntry.medication entry = None
  /\ ~ optional_fields_as_specified request entry.
Proof.
  cbv zeta. split; [reflexivity | split; [reflexivity | split; [reflexivity | ]]].
  intros [Hmed _]. discriminate Hmed.
Qed.

(** ** Dashboard: what counts as a number *)




(** ** The application as a whole: what a call can change *)

Lemma truthy_true_nonempty : forall s, truthy (Some s) = true -> s <> "".
Proof.
  intros s Ht. unfold truthy in Ht. apply negb_true_iff in Ht.
  now apply String.eqb_neq.
Qed.

Lemma find_email_none_inv : forall e l,
  find (fun u => String.eqb (User.email u) e) l = None ->
  ~ In e (map User.email l).
Proof.
  intros e l Hnone Hin. apply find_email_some in Hin.
  destruct Hin as [u Hu]. rewrite Hu in Hnone. discriminate Hnone.
Qed.

Ltac quiet := apply nothing_stored; reflexivity.

Lemma step_change :
  forall (generate_password_hash : string -> string -> string)
         (check_password_hash : string -> option string -> option bool)
         (w : World) (c : Call),
    Change generate_password_hash check_password_hash w c
      (step generate_password_hash check_password_hash w c).
Proof.
  intros gph cph w [e request utcnow salt]. unfold step, dispatch.
  cbn [endpoint call_request clock drawn_salt].
  destruct (allowed e (method request)) eqn:Hallowed; [ | quiet].
  destruct e.
  - (* index *)
    unfold_view. destruct (resolve_user w); quiet.
  - (* register *)
    unfold_view.
    destruct (resolve_user w) as [usr|] eqn:Huser; cbn [is_authenticated]; [quiet | ].
    destruct (method request) eqn:Hm; [quiet | ].
    destruct (form_get "email" (form request)) as [em|] eqn:He; [ | quiet].
    destruct (form_get "password" (form request)) as [p|] eqn:Hp; [ | quiet].
    destruct (negb (truthy (Some em)) || negb (truthy (Some p))) eqn:Ht; [quiet | ].
    destruct (negb (opt_string_eqb (Some p) (form_get "confirm" (form request))));
      [quiet | ].
    destruct (find_user_by_email (Some em) (db w)) eqn:Hfind; [quiet | ].
    apply orb_false_iff in Ht. destruct Ht as [Hte Htp].
    apply negb_false_iff in Hte. apply negb_false_iff in Htp.
    apply (user_registered gph cph w _ _ em p); try reflexivity; try assumption.
    + now apply truthy_true_nonempty.
    + now apply truthy_true_nonempty.
    + unfold registered. now apply find_email_none_inv.
  - (* login *)
    unfold_view.
    destruct (resolve_user w) as [usr|] eqn:Huser; cbn [is_authenticated]; [quiet | ].
    destruct (method request) eqn:Hm; [quiet | ].
    destruct (find_user_by_email (form_get "email" (form request)) (db w))
      as [u|] eqn:Hfind; [ | quiet].
    destruct (cph (User.password_hash u) (form_get "password" (form request)))
      as [[|]|] eqn:Hcheck; [ | quiet | quiet].
    apply (signed_in_as gph cph w _ _ u); try reflexivity; assumption.
  - (* logout *)
    unfold_view.
    destruct (resolve_user w) as [usr|] eqn:Huser; [ | quiet].
    apply (signed_out gph cph w _ _ usr); try reflexivity; assumption.
  - (* dashboard *)
    unfold_view.
    destruct (resolve_user w) as [usr|] eqn:Huser; [ | quiet].
    cbv beta.
    destruct (method request) eqn:Hm; [quiet | ].
    destruct (PyFloat.float (form_get "glucose_value" (form request)))
      as [[|]|v] eqn:Hfloat; [quiet | quiet | ].
    destruct v as [s|s| |s m ex]; try quiet;
      (eapply (entry_saved gph cph w _ _ usr);
       try reflexivity; try eassumption; discriminate).
Qed.

Lemma NoDup_snoc : forall (A : Type) (l : list A) (x : A),
  ~ In x l -> NoDup l -> NoDup (l ++ [x]).
Proof.
  intros A l x Hfresh Hnd.
  apply (Permutation_NoDup (Permutation_cons_append l x)).
  now constructor.
Qed.

Lemma next_id_positive : forall ids, 0 < next_id ids.
Proof.
  intros ids. unfold next_id.
  assert (0 <= fold_right Z.max 0 ids) by (induction ids; simpl; lia). lia.
Qed.

Lemma resolve_user_in_table : forall w u,
  resolve_user w = Some u -> In (User.id u) (map User.id (user_table (db w))).
Proof.
  intros w u Hu. unfold resolve_user, load_user, User_query_get in Hu.
  destruct (session_user_id (session w)); [ | discriminate Hu].
  apply find_some in Hu. apply in_map. exact (proj1 Hu).
Qed.

Lemma step_credentials :
  forall gph cph w c,
    credentials_well_formed (db w) ->
    credentials_well_formed (db (step gph cph w c)).
Proof.
  intros gph cph w c Hwf.
  destruct (step_change gph cph w c)
    as [Hdb _ | e p _ _ _ _ Hne _ _ Hfresh Hdb _ | u v _ _ _ _ _ Hdb _
        | u _ _ _ _ _ Hdb _ | u _ _ Hdb _];
    rewrite Hdb; try exact Hwf.
  - destruct Hwf as (Hemails & Hids & Hall).
    unfold credentials_well_formed. cbn [db with_user user_table].
    rewrite !map_app. cbn [map User.email User.id].
    split; [ | split].
    + now apply NoDup_snoc.
    + apply NoDup_snoc; [apply next_id_fresh | exact Hids].
    + apply Forall_app. split; [exact Hall | ].
      constructor; [ | constructor]. cbn. split; [exact Hne | apply next_id_positive].
Qed.

Lemma step_entries :
  forall gph cph w c,
    entries_well_formed (db w) ->
    entries_well_formed (db (step gph cph w c)).
Proof.
  intros gph cph w c Hwf.
  destruct (step_change gph cph w c)
    as [Hdb _ | e p _ _ _ _ _ _ _ _ Hdb _ | u v _ _ Huser _ Hv Hdb _
        | u _ _ _ _ _ Hdb _ | u _ _ Hdb _];
    rewrite Hdb; try exact Hwf.
  - destruct Hwf as (Hids & Hall).
    unfold entries_well_formed. cbn [db with_user user_table glucose_entry_table].
    split; [exact Hids | ].
    eapply Forall_impl; [ | exact Hall].
    intros entry [Hvalue Howner]. split; [exact Hvalue | ].
    rewrite map_app. apply in_or_app. now left.
  - destruct Hwf as (Hids & Hall).
    unfold entries_well_formed. cbn [db with_entry user_table glucose_entry_table].
    rewrite map_app. cbn [map GlucoseEntry.id].
    split.
    + apply NoDup_snoc; [apply next_id_fresh | exact Hids].
    + apply Forall_app. split; [exact Hall | ].
      constructor; [ | constructor]. cbn. split; [exact Hv | ].
      now apply resolve_user_in_table.
Qed.

(** X1. From the empty tables, whatever calls are served and whatever
    session each arrives with, the user table keeps its emails pairwise
    distinct and non-empty and its ids pairwise distinct and positive. *)
Theorem reachable_credentials_well_formed :
  forall (generate_password_hash : string -> string -> string)
         (check_password_hash : string -> option string -> option bool)
         (d : Database),
    reachable generate_password_hash check_password_hash d ->
    credentials_well_formed d.
Proof.
  intros gph cph d Hreach. induction Hreach as [|d s c Hreach IH].
  - unfold credentials_well_formed, empty_db. cbn.
    repeat split; constructor.
  - apply (step_credentials gph cph {| db := d; session := s |} c). exact IH.
Qed.

Lemma reachable_credentials_well_formed_witness :
  credentials_well_formed
    (db (step sample_generate_password_hash sample_check_password_hash
           {| db := empty_db; session := anonymous |} bob_registers)).
Proof.
  apply (reachable_credentials_well_formed
           sample_generate_password_hash sample_check_password_hash).
  apply reachable_step. apply reachable_init.
Defined.

(** X2. From the empty tables, whatever calls are served, the entry table
    keeps its ids pairwise distinct, holds no NaN, and every entry's
    user_id is the id of a row of the user table. *)
Theorem reachable_entries_well_formed :
  forall (generate_password_hash : string -> string -> string)
         (check_password_hash : string -> option string -> option bool)
         (d : Database),
    reachable generate_password_hash check_password_hash d ->
    entries_well_formed d.
Proof.
  intros gph cph d Hreach. induction Hreach as [|d s c Hreach IH].
  - unfold entries_well_formed, empty_db. cbn. split; constructor.
  - apply (step_entries gph cph {| db := d; session := s |} c). exact IH.
Qed.

Lemma reachable_entries_well_formed_witness :
  entries_well_formed
    (db (step sample_generate_password_hash sample_check_password_hash
           {| db := db (step sample_generate_password_hash sample_check_password_hash
                          {| db := empty_db; session := anonymous |} bob_registers);
              session := {| session_user_id := Some 1; session_flashes := [] |} |}
           (call Dashboard (post [("glucose_value", "5.5")])))).
Proof.
  apply (reachable_entries_well_formed
           sample_generate_password_hash sample_check_password_hash).
  apply reachable_step. apply reachable_step. apply reachable_init.
Defined.

(** X3. No call removes or alters a stored row: after any call both tables
    are the old ones with rows appended, one row at most in all. *)
Theorem calls_only_append :
  forall (generate_password_hash : string -> string -> string)
         (check_password_hash : string -> option string -> option bool)
         (w : World) (c : Call),
    exists users entries,
      user_table (db (step generate_password_hash check_password_hash w c))
        = user_table (db w) ++ users
      /\ glucose_entry_table (db (step generate_password_hash check_password_hash w c))
           = glucose_entry_table (db w) ++ entries
      /\ (List.length users + List.length entries <= 1)%nat.
Proof.
  intros gph cph w c.
  destruct (step_change gph cph w c)
    as [Hdb _ | e p _ _ _ _ _ _ _ _ Hdb _ | u v _ _ _ _ _ Hdb _
        | u _ _ _ _ _ Hdb _ | u _ _ Hdb _];
    rewrite Hdb.
  - exists [], []. rewrite !app_nil_r. repeat split. simpl. lia.
  - exists [User.mk (next_id (map User.id (user_table (db w)))) e
              (gph (drawn_salt c) p)], [].
    cbn [db with_user user_table glucose_entry_table].
    rewrite app_nil_r. repeat split. simpl. lia.
  - exists [], [GlucoseEntry.mk
                  (next_id (map GlucoseEntry.id (glucose_entry_table (db w))))
                  (clock c) v
                  (form_get "medication" (form (call_request c)))
                  (form_get "notes" (form (call_request c)))
                  (User.id u)].
    cbn [db with_entry user_table glucose_entry_table].
    rewrite app_nil_r. repeat split. simpl. lia.
  - exists [], []. rewrite !app_nil_r. repeat split. simpl. lia.
  - exists [], []. rewrite !app_nil_r. repeat split. simpl. lia.
Qed.

(** X4. A GET request stores nothing, on any route and in any state. *)
Theorem get_requests_store_nothing :
  forall (generate_password_hash : string -> string -> string)
         (check_password_hash : string -> option string -> option bool)
         (w : World) (c : Call),
    method (call_request c) = GET ->
    db (step generate_password_hash check_password_hash w c) = db w.
Proof.
  intros gph cph w c Hget.
  destruct (step_change gph cph w c)
    as [Hdb _ | e p _ Hpost _ _ _ _ _ _ _ _ | u v _ Hpost _ _ _ _ _
        | u _ _ _ _ _ Hdb _ | u _ _ Hdb _];
    try exact Hdb; rewrite Hget in Hpost; discriminate Hpost.
Qed.

Lemma get_requests_store_nothing_witness :
  db (step sample_generate_password_hash sample_check_password_hash
        alice_session (call Dashboard get)) = db alice_session.
Proof.
  apply (get_requests_store_nothing
           sample_generate_password_hash sample_check_password_hash
           alice_session (call Dashboard get)).
  reflexivity.
Defined.





(** X7. A call made by one user, or by nobody, leaves every other user's
    dashboard listing as it was. *)
Theorem other_users_listing_unchanged :
  forall (generate_password_hash : string -> string -> string)
         (check_password_hash : string -> option string -> option bool)
         (w : World) (c : Call) (uid : Z),
    (forall u, resolve_user w = Some u -> User.id u <> uid) ->
    recent_entries uid (db (step generate_password_hash check_password_hash w c))
      = recent_entries uid (db w).
Proof.
  intros gph cph w c uid Hother.
  destruct (step_change gph cph w c)
    as [Hdb _ | e p _ _ _ _ _ _ _ _ Hdb _ | u v _ _ Huser _ _ Hdb _
        | u _ _ _ _ _ Hdb _ | u _ _ Hdb _];
    rewrite Hdb; try reflexivity.
  unfold recent_entries, filter_by_user_id.
  cbn [db with_entry glucose_entry_table].
  rewrite filter_app. cbn [filter GlucoseEntry.user_id].
  destruct (Z.eqb_spec (User.id u) uid) as [Heq | Hne].
  - now elim (Hother u Huser).
  - now rewrite app_nil_r.
Qed.

Lemma other_users_listing_unchanged_witness :
  recent_entries 2
    (db (step sample_generate_password_hash sample_check_password_hash
           {| db := busy_db; session := signed_in alice |}
           (call Dashboard (post [("glucose_value", "5.5")]))))
  = recent_entries 2 (db {| db := busy_db; session := signed_in alice |}).
Proof.
  apply (other_users_listing_unchanged
           sample_generate_password_hash sample_check_password_hash
           {| db := busy_db; session := signed_in alice |}
           (call Dashboard (post [("glucose_value", "5.5")])) 2).
  intros u Hu. vm_compute in Hu. inversion Hu. discriminate.
Defined.

(** ** Flows through the views *)

Lemma find_snoc_fresh :
  forall (A : Type) (f : A -> bool) (l : list A) (x : A),
    (forall y, In y l -> f y = false) -> f x = true ->
    find f (l ++ [x]) = Some x.
Proof.
  induction l as [|a l IH]; intros x Hl Hx; simpl.
  - now rewrite Hx.
  - rewrite (Hl a (or_introl eq_refl)). apply IH; [ | exact Hx].
    intros y Hy. apply Hl. now right.
Qed.

Lemma find_email_snoc : forall e l u,
  ~ In e (map User.email l) -> User.email u = e ->
  find (fun x => String.eqb (User.email x) e) (l ++ [u]) = Some u.
Proof.
  intros e l u Hfresh Hu. apply find_snoc_fresh.
  - intros y Hy. apply String.eqb_neq. intro Heq. apply Hfresh.
    rewrite <- Heq. now apply in_map.
  - now apply String.eqb_eq.
Qed.

Lemma find_id_snoc : forall l u,
  ~ In (User.id u) (map User.id l) ->
  find (fun x => User.id x =? User.id u) (l ++ [u]) = Some u.
Proof.
  intros l u Hfresh. apply find_snoc_fresh.
  - intros y Hy. apply Z.eqb_neq. intro Heq. apply Hfresh.
    rewrite <- Heq. now apply in_map.
  - apply Z.eqb_refl.
Qed.

Lemma filter_email_fresh : forall e l,
  ~ In e (map User.email l) ->
  filter (fun x => String.eqb (User.email x) e) l = [].
Proof.
  induction l as [|a l IH]; intros Hfresh; [reflexivity | ].
  cbn [filter]. cbn [map] in Hfresh.
  destruct (String.eqb_spec (User.email a) e) as [Heq | Hne].
  - exfalso. apply Hfresh. now left.
  - apply IH. intro Hin. apply Hfresh. now right.
Qed.

Lemma register_saves :
  forall (generate_password_hash : string -> string -> string)
         (salt e p : string) (w : World),
    resolve_user w = None ->
    e <> "" -> p <> "" -> ~ registered e (db w) ->
    register generate_password_hash salt (registration_form e p) w =
      Returned (redirect (url_for Login))
        (flashed "success" "Registration successful. Please log in."
           (with_user
              (User.mk (next_id (map User.id (user_table (db w)))) e
                 (generate_password_hash salt p)) w)).
Proof.
  intros gph salt e p w Hanon He Hp Hfresh.
  unfold_view. rewrite Hanon. cbn [is_authenticated].
  cbn [registration_form post method form form_get String.eqb Ascii.eqb Bool.eqb].
  rewrite (truthy_nonempty e He), (truthy_nonempty p Hp).
  cbn [negb orb opt_string_eqb]. rewrite String.eqb_refl. cbn [negb].
  unfold find_user_by_email. rewrite (find_email_none e _ Hfresh). reflexivity.
Qed.

(** X8. Registration followed by login with the same email and password
    signs the new user in, provided [check_password_hash] accepts a
    password against the hash [generate_password_hash] made of it: the
    session then resolves to the new user row and the dashboard is rendered
    instead of a redirect. *)
Theorem register_then_login_reaches_dashboard :
  forall (generate_password_hash : string -> string -> string)
         (check_password_hash : string -> option string -> option bool)
         (salt e p : string) (w : World),
    session_user_id (session w) = None ->
    e <> "" -> p <> "" -> ~ registered e (db w) ->
    check_password_hash (generate_password_hash salt p) (Some p) = Some true ->
    let u := User.mk (next_id (map User.id (user_table (db w)))) e
               (generate_password_hash salt p) in
    let w1 := flashed "success" "Registration successful. Please log in."
                (with_user u w) in
    let w2 := flashed "success" "Logged in successfully." (sign_in u w1) in
    register generate_password_hash salt (registration_form e p) w
      = Returned (redirect (url_for Login)) w1
    /\ login check_password_hash (login_form e p) w1
         = Returned (redirect (url_for Dashboard)) w2
    /\ resolve_user w2 = Some u
    /\ forall utcnow,
         dashboard utcnow get w2
           = Returned (render_template "dashboard.html"
                         (recent_entries (User.id u) (db w2))) w2.
Proof.
  intros gph cph salt e p w Hsession He Hp Hfresh Hround u w1 w2.
  assert (Hanon : resolve_user w = None).
  { unfold resolve_user. now rewrite Hsession. }
  assert (Hanon1 : resolve_user w1 = None).
  { unfold resolve_user. subst w1. cbn [flashed with_user session session_user_id].
    now rewrite Hsession. }
  assert (Hsigned : resolve_user w2 = Some u).
  { unfold resolve_user, load_user, User_query_get. subst w2 w1.
    cbn [flashed sign_in with_user session session_user_id db user_table].
    apply find_id_snoc. subst u. cbn [User.id]. apply next_id_fresh. }
  split; [now apply register_saves | ].
  split; [ | split; [exact Hsigned | ]].
  - unfold_view. rewrite Hanon1. cbn [is_authenticated].
    cbn [login_form post method form form_get String.eqb Ascii.eqb Bool.eqb].
    unfold find_user_by_email. subst w1.
    cbn [flashed with_user db user_table].
    rewrite (find_email_snoc e (user_table (db w)) u Hfresh eq_refl).
    subst u. cbn [User.password_hash]. rewrite Hround. reflexivity.
  - intros utcnow. unfold_view. rewrite Hsigned. reflexivity.
Qed.

Lemma register_then_login_reaches_dashboard_witness :
  let w := {| db := alice_db; session := anonymous |} in
  let u := User.mk 2 "bob@example.com"
             (sample_generate_password_hash "salt" "hunter2") in
  let w1 := flashed "success" "Registration successful. Please log in."
              (with_user u w) in
  let w2 := flashed "success" "Logged in successfully." (sign_in u w1) in
  register sample_generate_password_hash "salt"
    (registration_form "bob@example.com" "hunter2") w
    = Returned (redirect (url_for Login)) w1
  /\ login sample_check_password_hash (login_form "bob@example.com" "hunter2") w1
       = Returned (redirect (url_for Dashboard)) w2
  /\ resolve_user w2 = Some u
  /\ forall utcnow,
       dashboard utcnow get w2
         = Returned (render_template "dashboard.html"
                       (recent_entries (User.id u) (db w2))) w2.
Proof.
  cbv zeta.
  apply (register_then_login_reaches_dashboard
           sample_generate_password_hash sample_check_password_hash
           "salt" "bob@example.com" "hunter2"
           {| db := alice_db; session := anonymous |}).
  - reflexivity.
  - discriminate.
  - discriminate.
  - unfold registered; simpl. intros [H | []]. discriminate H.
  - reflexivity.
Defined.

(** X9. Registering the same email a second time, with whatever password,
    is turned away with the warning and a redirect to the login page; the
    user table still holds one row with that email, the first one. *)
Theorem second_registration_is_turned_away :
  forall (generate_password_hash : string -> string -> string)
         (salt salt' e p p' : string) (w : World),
    session_user_id (session w) = None ->
    e <> "" -> p <> "" -> p' <> "" -> ~ registered e (db w) ->
    let u := User.mk (next_id (map User.id (user_table (db w)))) e
               (generate_password_hash salt p) in
    let w1 := flashed "success" "Registration successful. Please log in."
                (with_user u w) in
    register generate_password_hash salt (registration_form e p) w
      = Returned (redirect (url_for Login)) w1
    /\ register generate_password_hash salt' (registration_form e p') w1
         = Returned (redirect (url_for Login))
             (flashed "warning" "Email already registered. Please log in." w1)
    /\ filter (fun x => String.eqb (User.email x) e) (user_table (db w1)) = [u].
Proof.
  intros gph salt salt' e p p' w Hsession He Hp Hp' Hfresh u w1.
  assert (Hanon : resolve_user w = None).
  { unfold resolve_user. now rewrite Hsession. }
  assert (Hanon1 : resolve_user w1 = None).
  { unfold resolve_user. subst w1. cbn [flashed with_user session session_user_id].
    now rewrite Hsession. }
  split; [now apply register_saves | split].
  - unfold_view. rewrite Hanon1. cbn [is_authenticated].
    cbn [registration_form post method form form_get String.eqb Ascii.eqb Bool.eqb].
    rewrite (truthy_nonempty e He), (truthy_nonempty p' Hp').
    cbn [negb orb opt_string_eqb]. rewrite String.eqb_refl. cbn [negb].
    unfold find_user_by_email. subst w1. cbn [flashed with_user db user_table].
    rewrite (find_email_snoc e (user_table (db w)) u Hfresh eq_refl). reflexivity.
  - subst w1. cbn [flashed with_user db user_table].
    rewrite filter_app. cbn [filter]. subst u. cbn [User.email].
    rewrite String.eqb_refl.
    now rewrite (filter_email_fresh e _ Hfresh).
Qed.

Lemma second_registration_is_turned_away_witness :
  let w := {| db := alice_db; session := anonymous |} in
  let u := User.mk 2 "bob@example.com"
             (sample_generate_password_hash "salt" "hunter2") in
  let w1 := flashed "success" "Registration successful. Please log in."
              (with_user u w) in
  register sample_generate_password_hash "salt"
    (registration_form "bob@example.com" "hunter2") w
    = Returned (redirect (url_for Login)) w1
  /\ register sample_generate_password_hash "pepper"
       (registration_form "bob@example.com" "other") w1
       = Returned (redirect (url_for Login))
           (flashed "warning" "Email already registered. Please log in." w1)
  /\ filter (fun x => String.eqb (User.email x) "bob@example.com")
       (user_table (db w1)) = [u].
Proof.
  cbv zeta.
  apply (second_registration_is_turned_away sample_generate_password_hash
           "salt" "pepper" "bob@example.com" "hunter2" "other"
           {| db := alice_db; session := anonymous |}).
  - reflexivity.
  - discriminate.
  - discriminate.
  - discriminate.
  - unfold registered; simpl. intros [H | []]. discriminate H.
Defined.

(** X10. Logout by a signed-in user clears the session's user, flashes
    "Logged out." and redirects to the login page without touching the
    database; the next request to /dashboard from that session is sent to
    the login page. *)
Theorem logout_ends_the_session :
  forall (w : World) (u : User.t),
    resolve_user w = Some u ->
    let w' := flashed "info" "Logged out." (sign_out w) in
    logout w = Returned (redirect (url_for Login)) w'
    /\ db w' = db w
    /\ resolve_user w' = None
    /\ forall utcnow request,
         dashboard utcnow request w'
           = Returned (redirect "/login?next=%2Fdashboard")
               (flashed "message" "Please log in to access this page." w').
Proof.
  intros w u Hauth w'.
  split; [ | split; [reflexivity | split; [reflexivity | ]]].
  - unfold_view. rewrite Hauth. reflexivity.
  - intros utcnow request. unfold_view. reflexivity.
Qed.

Lemma logout_ends_the_session_witness :
  let w' := flashed "info" "Logged out." (sign_out alice_session) in
  logout alice_session = Returned (redirect (url_for Login)) w'
  /\ db w' = db alice_session
  /\ resolve_user w' = None
  /\ forall utcnow request,
       dashboard utcnow request w'
         = Returned (redirect "/login?next=%2Fdashboard")
             (flashed "message" "Please log in to access this page." w').
Proof.
  cbv zeta. apply (logout_ends_the_session alice_session alice). reflexivity.
Defined.

(** X11. A login POST that carries no password field is answered
    differently for a stored and for an unknown email whenever
    [check_password_hash] raises on a None password: the unknown email gets
    the login form with the generic message, the stored email makes the
    view raise. *)
Theorem login_without_password_raises_for_stored_email :
  forall (check_password_hash : string -> option string -> option bool)
         (request1 request2 : Request) (w : World) (u : User.t),
    resolve_user w = None ->
    method request1 = POST ->
    method request2 = POST ->
    form_get "password" (form request2) = None ->
    find_user_by_email (form_get "email" (form request1)) (db w) = None ->
    find_user_by_email (form_get "email" (form request2)) (db w) = Some u ->
    check_password_hash (User.password_hash u) None = None ->
    login check_password_hash request1 w
      = Returned (render_template "login.html" [])
          (flashed "danger" "Invalid email or password." w)
    /\ login check_password_hash request2 w = Raised "check_password_hash".
Proof.
  intros cph request1 request2 w u Hanon Hm1 Hm2 Hnopw Hunknown Hknown Hraises.
  unfold_view. rewrite Hanon, Hm1, Hm2. cbn [is_authenticated]. cbv beta.
  rewrite Hunknown, Hknown, Hnopw, Hraises. split; reflexivity.
Qed.

Lemma login_without_password_raises_for_stored_email_witness :
  let w := {| db := alice_db; session := anonymous |} in
  login sample_check_password_hash (post [("email", "nobody@example.com")]) w
    = Returned (render_template "login.html" [])
        (flashed "danger" "Invalid email or password." w)
  /\ login sample_check_password_hash (post [("email", "alice@example.com")]) w
       = Raised "check_password_hash".
Proof.
  cbv zeta.
  apply (login_without_password_raises_for_stored_email sample_check_password_hash
           (post [("email", "nobody@example.com")])
           (post [("email", "alice@example.com")])
           {| db := alice_db; session := anonymous |} alice).
  - reflexivity.
  - reflexivity.
  - reflexivity.
  - reflexivity.
  - reflexivity.
  - reflexivity.
  - reflexivity.
Defined.

(** X12. A POST to /register by an unauthenticated client in which the
    email or the password is missing or empty creates nothing: the reply is
    a redirect to the registration form with the message "Email and
    password are required." flashed as an error, whatever the confirm field
    and whether or not the email is already stored. *)
Theorem register_requires_email_and_password :
  forall (generate_password_hash : string -> string -> string)
         (salt : string) (request : Request) (w : World),
    resolve_user w = None ->
    method request = POST ->
    truthy (form_get "email" (form request)) = false
    \/ truthy (form_get "password" (form request)) = false ->
    register generate_password_hash salt request w
      = Returned (redirect (url_for Register))
          (flashed "danger" "Email and password are required." w).
Proof.
  intros gph salt request w Hanon Hpost Hmissing.
  unfold_view. rewrite Hanon, Hpost. cbn [is_authenticated].
  destruct (form_get "email" (form request)) as [e|]; [ | reflexivity].
  destruct (form_get "password" (form request)) as [p|]; [ | reflexivity].
  destruct Hmissing as [Hm | Hm]; rewrite Hm; cbn [negb orb]; [reflexivity | ].
  now rewrite orb_true_r.
Qed.

Lemma register_requires_email_and_password_witness :
  register sample_generate_password_hash "salt"
    (post [("email", "alice@example.com"); ("password", ""); ("confirm", "")])
    {| db := alice_db; session := anonymous |}
  = Returned (redirect (url_for Register))
      (flashed "danger" "Email and password are required."
         {| db := alice_db; session := anonymous |}).
Proof.
  apply (register_requires_email_and_password sample_generate_password_hash "salt"
           (post [("email", "alice@example.com"); ("password", ""); ("confirm", "")])
           {| db := alice_db; session := anonymous |}).
  - reflexivity.
  - reflexivity.
  - right. reflexivity.
Defined.



Lemma find_id_absent : forall i l,
  ~ In i (map User.id l) -> find (fun u => User.id u =? i) l = None.
Proof.
  induction l as [|a l IH]; simpl; intros Habsent; [reflexivity | ].
  destruct (Z.eqb_spec (User.id a) i) as [Heq | Hne].
  - exfalso. apply Habsent. now left.
  - apply IH. intro Hin. apply Habsent. now right.
Qed.

(** X14. A session that carries no user id, or the id of no stored user
    ([load_user] finds no row), counts as anonymous: / redirects it to the
    login page and changes nothing, and /dashboard refuses it. *)
Theorem sessions_without_a_stored_user_are_anonymous :
  forall (w : World),
    (forall i, session_user_id (session w) = Some i ->
               ~ In i (map User.id (user_table (db w)))) ->
    resolve_user w = None
    /\ index w = Returned (redirect (url_for Login)) w
    /\ forall utcnow request,
         dashboard utcnow request w
           = Returned (redirect "/login?next=%2Fdashboard")
               (flashed "message" "Please log in to access this page." w).
Proof.
  intros w Hstale.
  assert (Hanon : resolve_user w = None).
  { unfold resolve_user, load_user, User_query_get.
    destruct (session_user_id (session w)) as [i|]; [ | reflexivity].
    apply find_id_absent. now apply Hstale. }
  split; [exact Hanon | split].
  - unfold_view. now rewrite Hanon.
  - intros utcnow request. unfold_view. now rewrite Hanon.
Qed.

Lemma sessions_without_a_stored_user_are_anonymous_witness :
  let w := {| db := alice_db;
              session := {| session_user_id := Some 9; session_flashes := [] |} |} in
  resolve_user w = None
  /\ index w = Returned (redirect (url_for Login)) w
  /\ forall utcnow request,
       dashboard utcnow request w
         = Returned (redirect "/login?next=%2Fdashboard")
             (flashed "message" "Please log in to access this page." w).
Proof.
  cbv zeta.
  apply (sessions_without_a_stored_user_are_anonymous
           {| db := alice_db;
              session := {| session_user_id := Some 9; session_flashes := [] |} |}).
  intros i Hi. inversion Hi. simpl. intros [H | []]. discriminate H.
Defined.

(** X15. Redirect after POST: whenever a POST to /register or to
    /dashboard is answered at all, the answer is a redirect, never a
    rendered page. *)
Theorem posts_are_answered_by_redirects :
  forall (generate_password_hash : string -> string -> string)
         (check_password_hash : string -> option string -> option bool)
         (w w' : World) (c : Call) (r : Response),
    method (call_request c) = POST ->
    endpoint c = Register \/ endpoint c = Dashboard ->
    dispatch generate_password_hash check_password_hash c w = Returned r w' ->
    exists location, r = redirect location.
Proof.
  intros gph cph w w' [e request utcnow salt] r Hpost Hroute.
  cbn [endpoint call_request] in Hpost, Hroute.
  unfold dispatch. cbn [endpoint call_request clock drawn_salt].
  rewrite Hpost.
  destruct Hroute as [-> | ->]; cbn [allowed methods existsb Method_eqb orb].
  - unfold_view. rewrite Hpost.
    destruct (resolve_user w); cbn [is_authenticated];
      [intro H; inversion H; eauto | ].
    destruct (form_get "email" (form request)) as [em|];
      [ | intro H; inversion H; eauto].
    destruct (form_get "password" (form request)) as [p|];
      [ | intro H; inversion H; eauto].
    destruct (negb (truthy (Some em)) || negb (truthy (Some p)));
      [intro H; inversion H; eauto | ].
    destruct (negb (opt_string_eqb (Some p) (form_get "confirm" (form request))));
      [intro H; inversion H; eauto | ].
    destruct (find_user_by_email (Some em) (db w)); intro H; inversion H; eauto.
  - unfold_view.
    destruct (resolve_user w); [ | intro H; inversion H; eauto].
    cbv beta. rewrite Hpost.
    destruct (PyFloat.float (form_get "glucose_value" (form request))) as [[|]|v];
      [intro H; inversion H; eauto | intro H; inversion H; eauto | ].
    destruct (sqlite_bind_double v); [intro H; inversion H; eauto | discriminate].
Qed.

Lemma posts_are_answered_by_redirects_witness :
  exists location, redirect (url_for Dashboard) = redirect location.
Proof.
  apply (posts_are_answered_by_redirects
           sample_generate_password_hash sample_check_password_hash
           alice_session
           (flashed "danger" "Please enter a valid number for glucose value."
              alice_session)
           (call Dashboard (post [("glucose_value", "high")]))
           (redirect (url_for Dashboard))).
  - reflexivity.
  - right. reflexivity.
  - reflexivity.
Defined.

(** ** More on the dashboard query *)

Lemma StronglySorted_app_cross :
  forall (A : Type) (R : A -> A -> Prop) (l1 l2 : list A),
    StronglySorted R (l1 ++ l2) ->
    forall x y, In x l1 -> In y l2 -> R x y.
Proof.
  induction l1 as [|a l1 IH]; intros l2 Hs x y Hx Hy; [contradiction | ].
  simpl in Hs. apply StronglySorted_inv in Hs. destruct Hs as [Hs Hall].
  destruct Hx as [-> | Hx].
  - rewrite Forall_forall in Hall. apply Hall. apply in_or_app. now right.
  - now apply (IH l2 Hs).
Qed.

(** X16. The listing is made of the newest entries: an entry of the user
    that the query leaves out bears no later timestamp than any entry it
    lists. *)
Theorem recent_entries_are_the_newest :
  forall (uid : Z) (d : Database) (listed omitted : GlucoseEntry.t),
    In listed (recent_entries uid d) ->
    In omitted (glucose_entry_table d) ->
    GlucoseEntry.user_id omitted = uid ->
    ~ In omitted (recent_entries uid d) ->
    GlucoseEntry.timestamp omitted <= GlucoseEntry.timestamp listed.
Proof.
  intros uid d listed omitted Hlisted Hstored Howned Hout.
  unfold recent_entries, limit in *.
  set (s := order_by_timestamp_desc (filter_by_user_id uid (glucose_entry_table d))) in *.
  assert (Hin : In omitted s).
  { apply (Permutation_in omitted (order_by_timestamp_desc_perm _)).
    unfold filter_by_user_id. apply filter_In. split; [exact Hstored | ].
    now apply Z.eqb_eq. }
  pose proof (order_by_timestamp_desc_sorted
                (filter_by_user_id uid (glucose_entry_table d))) as Hsorted.
  fold s in Hsorted. unfold descending in Hsorted.
  rewrite <- (firstn_skipn 30 s) in Hin, Hsorted.
  apply in_app_or in Hin. destruct Hin as [Hin | Hin]; [contradiction | ].
  exact (StronglySorted_app_cross _ _ _ _ Hsorted listed omitted Hlisted Hin).
Qed.

Lemma recent_entries_are_the_newest_witness :
  GlucoseEntry.timestamp (reading 31 50 (User.id alice))
  <= GlucoseEntry.timestamp (reading 1 101 (User.id alice)).
Proof.
  apply (recent_entries_are_the_newest (User.id alice) crowded_db
           (reading 1 101 (User.id alice)) (reading 31 50 (User.id alice))).
  - vm_compute. do 29 right. left. reflexivity.
  - vm_compute. do 30 right. left. reflexivity.
  - reflexivity.
  - intro Hin. apply (in_map GlucoseEntry.id) in Hin. vm_compute in Hin.
    repeat (destruct Hin as [Hin | Hin]; [discriminate Hin | ]). exact Hin.
Defined.

(** X17. The listing has as many entries as the user owns, up to 30. *)
Theorem recent_entries_length :
  forall (uid : Z) (d : Database),
    List.length (recent_entries uid d)
    = Nat.min 30 (List.length (filter_by_user_id uid (glucose_entry_table d))).
Proof.
  intros uid d. unfold recent_entries, limit. rewrite length_firstn.
  f_equal. symmetry. apply Permutation_length, order_by_timestamp_desc_perm.
Qed.

(** X18. A user who owns at most 30 entries sees every one of them: the
    listing is then a rearrangement of the user's rows of the table. *)
Theorem recent_entries_complete_below_limit :
  forall (uid : Z) (d : Database),
    (List.length (filter_by_user_id uid (glucose_entry_table d)) <= 30)%nat ->
    Permutation (filter_by_user_id uid (glucose_entry_table d))
      (recent_entries uid d).
Proof.
  intros uid d Hfew. unfold recent_entries, limit.
  rewrite firstn_all2.
  - apply order_by_timestamp_desc_perm.
  - rewrite <- (Permutation_length (order_by_timestamp_desc_perm _)). exact Hfew.
Qed.

Lemma recent_entries_complete_below_limit_witness :
  Permutation (filter_by_user_id (User.id alice) (glucose_entry_table busy_db))
    (recent_entries (User.id alice) busy_db).
Proof.
  apply (recent_entries_complete_below_limit (User.id alice) busy_db).
  vm_compute. lia.
Defined.
